(** * shortcut-mcp-server: the tool dispatcher and its remote client

    A shallow embedding of [src/index.ts]: the [ShortcutAPI] client class,
    the [ShortcutMCPServer] call-tool handler with its configuration gate,
    and the JavaScript value operations both rely on (string conversion,
    truthiness, [JSON.stringify], [URLSearchParams], [encodeURIComponent]).

    Asynchronous code is written in a state-and-exception monad [Async]:
    the state holds the dispatcher's [shortcutAPI] field and the trace of
    HTTP requests handed to [fetch]; the remote service is an oracle that
    answers a request given the requests issued before it. *)

From Stdlib Require Import String Ascii List ZArith Bool Lia DecimalString.
Import ListNotations.
Local Open Scope string_scope.
Local Open Scope Z_scope.
Set Warnings "-register-all".

(* ================================================================== *)
(** ** JavaScript values *)

Module Js.

(** JSON values, as produced by [JSON.parse] and carried in tool
    arguments.  Numbers: the identifiers and estimates that travel through
    the tools are integers; [JNum n] stands for the number of integer
    value [n] with [|n| < 10^21], whose string form is the plain decimal
    numeral.  Objects keep their properties in insertion order.  The
    value [undefined] is not a JSON value: a possibly-undefined expression
    has type [option JSON], with [None] for [undefined]. *)
Inductive JSON : Type :=
| JNull
| JBool (b : bool)
| JNum (n : Z)
| JStr (s : string)
| JArr (items : list JSON)
| JObj (props : list (string * JSON)).

Definition Obj : Type := list (string * JSON).

(** Property read [o.k]: [undefined] when [k] is not an own property. *)
Fixpoint get (k : string) (o : Obj) : option JSON :=
  match o with
  | [] => None
  | (k', v) :: rest => if String.eqb k k' then Some v else get k rest
  end.

(** The rest pattern [{ k, ...rest } = o]: the properties of [o] other
    than [k], in their order. *)
Definition rest_without (k : string) (o : Obj) : Obj :=
  filter (fun kv => negb (String.eqb k (fst kv))) o.

(** Optional chaining [params?.k]. *)
Definition get_opt (k : string) (o : option Obj) : option JSON :=
  match o with
  | None => None
  | Some o => get k o
  end.

Definition Number_toString (n : Z) : string :=
  NilZero.string_of_int (Z.to_int n).

(** [ToString], as applied by template literals and by [x.toString()]
    on a non-nullish value.  An array joins its elements with commas,
    printing [null] elements as the empty string. *)
Fixpoint ToString (v : JSON) : string :=
  match v with
  | JNull => "null"
  | JBool true => "true"
  | JBool false => "false"
  | JNum n => Number_toString n
  | JStr s => s
  | JArr items =>
      String.concat ","
        (map (fun x => match x with JNull => "" | _ => ToString x end) items)
  | JObj _ => "[object Object]"
  end.

Definition ToString_opt (v : option JSON) : string :=
  match v with
  | None => "undefined"
  | Some v => ToString v
  end.

(** [ToBoolean]. *)
Definition truthy (v : JSON) : bool :=
  match v with
  | JNull => false
  | JBool b => b
  | JNum n => negb (n =? 0)
  | JStr s => negb (String.eqb s "")
  | JArr _ | JObj _ => true
  end.

Definition truthy_opt (v : option JSON) : bool :=
  match v with
  | None => false
  | Some v => truthy v
  end.

(** *** Characters *)

Definition chr (n : nat) : string := String (ascii_of_nat n) EmptyString.
Definition newline : string := chr 10.

Definition hex_digit (upper : bool) (n : nat) : string :=
  match n with
  | 0 => "0" | 1 => "1" | 2 => "2" | 3 => "3" | 4 => "4"
  | 5 => "5" | 6 => "6" | 7 => "7" | 8 => "8" | 9 => "9"
  | 10 => if upper then "A" else "a"
  | 11 => if upper then "B" else "b"
  | 12 => if upper then "C" else "c"
  | 13 => if upper then "D" else "d"
  | 14 => if upper then "E" else "e"
  | _ => if upper then "F" else "f"
  end%nat.

Definition hex2 (upper : bool) (n : nat) : string :=
  hex_digit upper (Nat.div n 16) ++ hex_digit upper (Nat.modulo n 16).

Definition is_alnum (c : ascii) : bool :=
  let n := nat_of_ascii c in
  ((48 <=? n) && (n <=? 57) || (65 <=? n) && (n <=? 90)
   || (97 <=? n) && (n <=? 122))%nat.

Definition one_of (set : string) (c : ascii) : bool :=
  existsb (Ascii.eqb c) (list_ascii_of_string set).

Fixpoint map_chars (f : ascii -> string) (s : string) : string :=
  match s with
  | EmptyString => EmptyString
  | String c rest => f c ++ map_chars f rest
  end.

(** *** JSON.stringify *)

(** [QuoteJSONString]: the two-character escapes, [\u00xx] for the other
    control characters, everything else as it is. *)
Definition quote_char (c : ascii) : string :=
  let n := nat_of_ascii c in
  if (n =? 8)%nat then "\b"
  else if (n =? 9)%nat then "\t"
  else if (n =? 10)%nat then "\n"
  else if (n =? 12)%nat then "\f"
  else if (n =? 13)%nat then "\r"
  else if (n =? 34)%nat then "\" ++ chr 34
  else if (n =? 92)%nat then "\\"
  else if (n <? 32)%nat then "\u00" ++ hex2 false n
  else String c EmptyString.

Definition QuoteJSONString (s : string) : string :=
  chr 34 ++ map_chars quote_char s ++ chr 34.

(** [JSON.stringify(v)] on a JSON value. *)
Fixpoint JSON_stringify (v : JSON) : string :=
  match v with
  | JNull => "null"
  | JBool true => "true"
  | JBool false => "false"
  | JNum n => Number_toString n
  | JStr s => QuoteJSONString s
  | JArr items => "[" ++ String.concat "," (map JSON_stringify items) ++ "]"
  | JObj props =>
      "{" ++ String.concat ","
               (map (fun kv => QuoteJSONString (fst kv) ++ ":"
                               ++ JSON_stringify (snd kv)) props)
          ++ "}"
  end.

(** [JSON.stringify(v, null, 2)], at the current indentation. *)
Fixpoint stringify_indent (indent : string) (v : JSON) : string :=
  let inner := indent ++ "  " in
  let sep := "," ++ newline ++ inner in
  match v with
  | JArr [] => "[]"
  | JArr items =>
      "[" ++ newline ++ inner
          ++ String.concat sep (map (stringify_indent inner) items)
          ++ newline ++ indent ++ "]"
  | JObj [] => "{}"
  | JObj props =>
      "{" ++ newline ++ inner
          ++ String.concat sep
               (map (fun kv => QuoteJSONString (fst kv) ++ ": "
                               ++ stringify_indent inner (snd kv)) props)
          ++ newline ++ indent ++ "}"
  | _ => JSON_stringify v
  end.

Definition JSON_stringify_pretty (v : JSON) : string := stringify_indent "" v.

(** [JSON.stringify] of a possibly-undefined value is [undefined] for
    [undefined]. *)
Definition JSON_stringify_opt (v : option JSON) : option string :=
  option_map JSON_stringify v.

(** *** URL encoding *)

Definition percent (c : ascii) : string := "%" ++ hex2 true (nat_of_ascii c).

(** [encodeURIComponent]: letters, digits and [-_.!~*'()] stay. *)
Definition encodeURIComponent (s : string) : string :=
  map_chars (fun c => if is_alnum c || one_of "-_.!~*'()" c
                      then String c EmptyString else percent c) s.

(** The [application/x-www-form-urlencoded] serializer of
    [URLSearchParams]: letters, digits and [*-._] stay, a space is [+]. *)
Definition form_urlencode (s : string) : string :=
  map_chars (fun c => if is_alnum c || one_of "*-._" c
                      then String c EmptyString
                      else if Ascii.eqb c " " then "+" else percent c) s.

Definition URLSearchParams : Type := list (string * string).

Definition URLSearchParams_toString (p : URLSearchParams) : string :=
  String.concat "&"
    (map (fun kv => form_urlencode (fst kv) ++ "=" ++ form_urlencode (snd kv)) p).

End Js.

Import Js.

(* ================================================================== *)
(** ** Errors, HTTP and the [Async] monad *)

Inductive ErrorCode : Type := InvalidRequest | MethodNotFound | InternalError.

(** What the client can throw: [Error], and the [TypeError] and
    [SyntaxError] of the runtime.  Only the message is ever observed. *)
Inductive JsError : Type := Error (message : string).

Definition message (e : JsError) : string :=
  match e with Error m => m end.

(** What a handler can throw: the SDK's [McpError], built from a code and
    a message, or one of the above. *)
Inductive Thrown : Type :=
| McpError (code : ErrorCode) (msg : string)
| Other (e : JsError).

Inductive Result (E A : Type) : Type :=
| Return (a : A)
| Throw (e : E).
Arguments Return {E A} a.
Arguments Throw {E A} e.

(** The arguments of one [fetch] call.  A header value and the body are
    kept as the code passes them, [None] for [undefined]; [meth = None]
    is the default method, GET. *)
Record Request : Type := {
  url : string;
  meth : option string;
  headers : list (string * option JSON);
  body : option string
}.

(** A response, as seen through [status], [ok], [text()] and [json()]:
    [json] is the outcome of parsing the body. *)
Inductive BodyJson : Type :=
| Parsed (v : JSON)
| SyntaxError (msg : string).

Record Response : Type := {
  status : Z;
  text : string;
  json : BodyJson
}.

Definition ok (r : Response) : bool :=
  (200 <=? status r) && (status r <=? 299).

Inductive FetchOutcome : Type :=
| Rejected (msg : string)
| Responded (r : Response).

(** The remote service: its answer to a request, given the requests
    that came before. *)
Definition Remote : Type := list Request -> Request -> FetchOutcome.

Record ShortcutConfig : Type := {
  apiToken : option JSON;
  baseUrl : option JSON
}.

Record ShortcutAPI : Type := {
  config : ShortcutConfig;
  api_baseUrl : JSON
}.

(** The state a call runs in: the server's [shortcutAPI] field ([None]
    for [null]) and the requests handed to [fetch] so far. *)
Record State : Type := {
  shortcutAPI : option ShortcutAPI;
  sent : list Request
}.

Definition Unconfigured (s : State) : Prop := shortcutAPI s = None.
Definition Configured (s : State) : Prop := shortcutAPI s <> None.

Definition Async (E A : Type) : Type := State -> Result E A * State.

Definition ret {E A} (a : A) : Async E A := fun s => (Return a, s).

Definition throw {E A} (e : E) : Async E A := fun s => (Throw e, s).

Definition bind {E A B} (m : Async E A) (k : A -> Async E B) : Async E B :=
  fun s =>
    match m s with
    | (Return a, s') => k a s'
    | (Throw e, s') => (Throw e, s')
    end.

(** [try { body } catch (error) { handler }]. *)
Definition try_catch {E E' A} (body : Async E A) (handler : E -> Async E' A)
  : Async E' A :=
  fun s =>
    match body s with
    | (Return a, s') => (Return a, s')
    | (Throw e, s') => handler e s'
    end.

(** A client exception travelling up through a handler. *)
Definition lift {A} (m : Async JsError A) : Async Thrown A :=
  try_catch m (fun e => throw (Other e)).

(** [this.shortcutAPI = v]. *)
Definition set_shortcutAPI {E} (v : option ShortcutAPI) : Async E unit :=
  fun s => (Return tt, {| shortcutAPI := v; sent := sent s |}).

Declare Scope async_scope.
Delimit Scope async_scope with async.
Notation "x <- m ;; k" := (bind m (fun x => k))
  (at level 100, m at next level, right associativity) : async_scope.
Notation "m ;;; k" := (bind m (fun _ => k))
  (at level 100, right associativity) : async_scope.
Local Open Scope async_scope.

(* ================================================================== *)
(** ** The client: [class ShortcutAPI] *)

Record RequestInit : Type := {
  init_method : option string;
  init_headers : list (string * option JSON);
  init_body : option string
}.

Definition no_options : RequestInit :=
  {| init_method := None; init_headers := []; init_body := None |}.

Definition with_method (m : string) : RequestInit :=
  {| init_method := Some m; init_headers := []; init_body := None |}.

Definition with_body (m : string) (b : option string) : RequestInit :=
  {| init_method := Some m; init_headers := []; init_body := b |}.

(** Assignment [o[k] = v] on an ordered property list. *)
Fixpoint assign {V} (k : string) (v : V) (o : list (string * V))
  : list (string * V) :=
  match o with
  | [] => [(k, v)]
  | (k', v') :: rest =>
      if String.eqb k k' then (k, v) :: rest else (k', v') :: assign k v rest
  end.

(** Object spread [{ ...o, ...extra }]. *)
Definition spread {V} (o extra : list (string * V)) : list (string * V) :=
  fold_left (fun acc kv => assign (fst kv) (snd kv) acc) extra o.

Definition default_baseUrl : string := "https://api.app.shortcut.com/api/v3".

(** [new ShortcutAPI(config)]: [config.baseUrl || default]. *)
Definition new_ShortcutAPI (c : ShortcutConfig) : ShortcutAPI :=
  {| config := c;
     api_baseUrl :=
       match baseUrl c with
       | Some v => if truthy v then v else JStr default_baseUrl
       | None => JStr default_baseUrl
       end |}.

(** The state once [q] has been handed to [fetch]. *)
Definition pushed (s : State) (q : Request) : State :=
  {| shortcutAPI := shortcutAPI s; sent := (sent s ++ [q])%list |}.

Section Client.

Variable remote : Remote.

(** [await fetch(url, init)]: the request joins the trace, and the remote
    service answers or the call rejects. *)
Definition fetch (q : Request) : Async JsError Response :=
  fun s =>
    match remote (sent s) q with
    | Rejected m => (Throw (Error m), pushed s q)
    | Responded r => (Return r, pushed s q)
    end.

Definition response_json (r : Response) : Async JsError JSON :=
  match json r with
  | Parsed v => ret v
  | SyntaxError m => throw (Error m)
  end.

Definition request_of (this : ShortcutAPI) (endpoint : string)
  (options : RequestInit) : Request :=
  {| url := ToString (api_baseUrl this) ++ endpoint;
     meth := init_method options;
     headers :=
       spread [("Content-Type", Some (JStr "application/json"));
               ("Shortcut-Token", apiToken (config this))]
              (init_headers options);
     body := init_body options |}.

Definition api_error (r : Response) : JsError :=
  Error ("Shortcut API error (" ++ Number_toString (status r) ++ "): "
         ++ text r).

Definition makeRequest (this : ShortcutAPI) (endpoint : string)
  (options : RequestInit) : Async JsError JSON :=
  response <- fetch (request_of this endpoint options) ;;
  if negb (ok response)
  then throw (api_error response)
  else response_json response.

(** The filters of [getStories] that reach the query string. *)
Definition append_if (value : option JSON) (k v : string)
  (p : URLSearchParams) : URLSearchParams :=
  if truthy_opt value then (p ++ [(k, v)])%list else p.

Definition getStories_searchParams (params : option Obj) : URLSearchParams :=
  let project_id := get_opt "project_id" params in
  let epic_id := get_opt "epic_id" params in
  let includes_description := get_opt "includes_description" params in
  let workflow_state_id := get_opt "workflow_state_id" params in
  append_if workflow_state_id "workflow_state_id" (ToString_opt workflow_state_id)
    (append_if includes_description "includes_description" "true"
       (append_if epic_id "epic_id" (ToString_opt epic_id)
          (append_if project_id "project_id" (ToString_opt project_id) []))).

Definition getStories_query (params : option Obj) : string :=
  let searchParams := getStories_searchParams params in
  if truthy (JStr (URLSearchParams_toString searchParams))
  then "?" ++ URLSearchParams_toString searchParams
  else "".

(** [params || {}]. *)
Definition or_empty (params : option Obj) : JSON :=
  match params with
  | Some o => JObj o
  | None => JObj []
  end.

Definition getStories (this : ShortcutAPI) (params : option Obj)
  : Async JsError JSON :=
  makeRequest this ("/stories/search" ++ getStories_query params)
    (with_body "POST" (Some (JSON_stringify (or_empty params)))).

Definition stringify_arg (o : option Obj) : option string :=
  JSON_stringify_opt (option_map JObj o).

Definition getStory (this : ShortcutAPI) (id : option JSON) :=
  makeRequest this ("/stories/" ++ ToString_opt id) no_options.

Definition createStory (this : ShortcutAPI) (story : option Obj) :=
  makeRequest this "/stories" (with_body "POST" (stringify_arg story)).

Definition updateStory (this : ShortcutAPI) (id : option JSON) (updates : Obj) :=
  makeRequest this ("/stories/" ++ ToString_opt id)
    (with_body "PUT" (Some (JSON_stringify (JObj updates)))).

Definition deleteStory (this : ShortcutAPI) (id : option JSON)
  : Async JsError unit :=
  makeRequest this ("/stories/" ++ ToString_opt id) (with_method "DELETE") ;;;
  ret tt.

Definition getEpics (this : ShortcutAPI) := makeRequest this "/epics" no_options.

Definition getEpic (this : ShortcutAPI) (id : option JSON) :=
  makeRequest this ("/epics/" ++ ToString_opt id) no_options.

Definition createEpic (this : ShortcutAPI) (epic : option Obj) :=
  makeRequest this "/epics" (with_body "POST" (stringify_arg epic)).

Definition updateEpic (this : ShortcutAPI) (id : option JSON) (updates : Obj) :=
  makeRequest this ("/epics/" ++ ToString_opt id)
    (with_body "PUT" (Some (JSON_stringify (JObj updates)))).

Definition getProjects (this : ShortcutAPI) :=
  makeRequest this "/projects" no_options.

Definition getProject (this : ShortcutAPI) (id : option JSON) :=
  makeRequest this ("/projects/" ++ ToString_opt id) no_options.

Definition createProject (this : ShortcutAPI) (project : option Obj) :=
  makeRequest this "/projects" (with_body "POST" (stringify_arg project)).

Definition updateProject (this : ShortcutAPI) (id : option JSON) (updates : Obj) :=
  makeRequest this ("/projects/" ++ ToString_opt id)
    (with_body "PUT" (Some (JSON_stringify (JObj updates)))).

Definition getMembers (this : ShortcutAPI) :=
  makeRequest this "/members" no_options.

Definition getCurrentMember (this : ShortcutAPI) :=
  makeRequest this "/member" no_options.

Definition getLabels (this : ShortcutAPI) :=
  makeRequest this "/labels" no_options.

Definition createLabel (this : ShortcutAPI) (label : option Obj) :=
  makeRequest this "/labels" (with_body "POST" (stringify_arg label)).

Definition getIterations (this : ShortcutAPI) :=
  makeRequest this "/iterations" no_options.

Definition getIteration (this : ShortcutAPI) (id : option JSON) :=
  makeRequest this ("/iterations/" ++ ToString_opt id) no_options.

Definition createIteration (this : ShortcutAPI) (iteration : option Obj) :=
  makeRequest this "/iterations" (with_body "POST" (stringify_arg iteration)).

(** [search(query, detail = 'full')]. *)
Definition search (this : ShortcutAPI) (query detail : option JSON) :=
  let detail := match detail with Some d => d | None => JStr "full" end in
  makeRequest this
    ("/search?query=" ++ encodeURIComponent (ToString_opt query)
     ++ "&detail=" ++ ToString detail)
    no_options.

Definition getWorkflows (this : ShortcutAPI) :=
  makeRequest this "/workflows" no_options.

End Client.

(* ================================================================== *)
(** ** The dispatcher: [class ShortcutMCPServer] *)

(** One catalog entry of the list-tools handler: the tool's name, the
    property names of its input schema and the schema's [required] list
    (descriptions and property types play no part in dispatch). *)
Record Tool : Type := {
  name : string;
  properties : list string;
  required : list string
}.

Definition tools : list Tool := [
  {| name := "shortcut_configure";
     properties := ["apiToken"; "baseUrl"]; required := ["apiToken"] |};
  {| name := "shortcut_get_stories";
     properties := ["project_id"; "epic_id"; "workflow_state_id";
                    "includes_description"];
     required := [] |};
  {| name := "shortcut_get_story"; properties := ["id"]; required := ["id"] |};
  {| name := "shortcut_create_story";
     properties := ["name"; "description"; "story_type"; "project_id";
                    "epic_id"; "estimate"; "workflow_state_id"; "owner_ids"];
     required := ["name"] |};
  {| name := "shortcut_update_story";
     properties := ["id"; "name"; "description"; "story_type";
                    "workflow_state_id"; "estimate"; "owner_ids"];
     required := ["id"] |};
  {| name := "shortcut_delete_story"; properties := ["id"]; required := ["id"] |};
  {| name := "shortcut_get_epics"; properties := []; required := [] |};
  {| name := "shortcut_get_epic"; properties := ["id"]; required := ["id"] |};
  {| name := "shortcut_create_epic";
     properties := ["name"; "description"; "state"]; required := ["name"] |};
  {| name := "shortcut_update_epic";
     properties := ["id"; "name"; "description"; "state"];
     required := ["id"] |};
  {| name := "shortcut_get_projects"; properties := []; required := [] |};
  {| name := "shortcut_get_project"; properties := ["id"]; required := ["id"] |};
  {| name := "shortcut_create_project";
     properties := ["name"; "description"; "team_id"];
     required := ["name"; "team_id"] |};
  {| name := "shortcut_get_members"; properties := []; required := [] |};
  {| name := "shortcut_get_current_member"; properties := []; required := [] |};
  {| name := "shortcut_get_labels"; properties := []; required := [] |};
  {| name := "shortcut_create_label";
     properties := ["name"; "color"; "description"]; required := ["name"] |};
  {| name := "shortcut_get_iterations"; properties := []; required := [] |};
  {| name := "shortcut_get_iteration"; properties := ["id"]; required := ["id"] |};
  {| name := "shortcut_create_iteration";
     properties := ["name"; "start_date"; "end_date"; "description"];
     required := ["name"; "start_date"; "end_date"] |};
  {| name := "shortcut_search";
     properties := ["query"; "detail"]; required := ["query"] |};
  {| name := "shortcut_get_workflows"; properties := []; required := [] |}
].

Definition catalog : list string := map name tools.

(** A handler's return value [{ content: [{ type: "text", text }] }]. *)
Record Content : Type := { type : string; content_text : string }.
Record ToolResult : Type := { content : list Content }.

Definition text_result (t : string) : ToolResult :=
  {| content := [ {| type := "text"; content_text := t |} ] |}.

Definition not_configured_message : string :=
  "Shortcut API not configured. Please run shortcut_configure first.".

(** Destructuring [const { k, ... } = args]: a [TypeError] when the call
    carried no arguments (the message is the one of V8). *)
Definition destructure {E} (wrap : JsError -> E) (k : string)
  (args : option Obj) : Async E Obj :=
  match args with
  | Some a => ret a
  | None =>
      throw (wrap (Error ("Cannot destructure property '" ++ k
                          ++ "' of 'args' as it is undefined.")))
  end.

(** [this.shortcutAPI!.m]: the non-null assertion checks nothing, so on
    [null] the property read is a [TypeError]. *)
Definition this_shortcutAPI (m : string) : Async Thrown ShortcutAPI :=
  fun s =>
    match shortcutAPI s with
    | Some api => (Return api, s)
    | None =>
        (Throw (Other (Error ("Cannot read properties of null (reading '"
                              ++ m ++ "')"))), s)
    end.

(** [const { apiToken, baseUrl } = args] and the object literal
    [{ apiToken, baseUrl }] built from it. *)
Definition config_of_args (a : Obj) : ShortcutConfig :=
  {| apiToken := get "apiToken" a; baseUrl := get "baseUrl" a |}.

Section Server.

Variable remote : Remote.

Definition handleConfigure (args : option Obj) : Async Thrown ToolResult :=
  a <- destructure Other "apiToken" args ;;
  let api := new_ShortcutAPI (config_of_args a) in
  set_shortcutAPI (Some api) ;;;
  try_catch
    (getCurrentMember remote api ;;;
     ret (text_result "Shortcut API configured successfully!"))
    (fun error =>
       set_shortcutAPI None ;;;
       throw (McpError InvalidRequest
                ("Failed to configure Shortcut API: " ++ message error))).

Definition handleGetStories (args : option Obj) : Async Thrown ToolResult :=
  api <- this_shortcutAPI "getStories" ;;
  stories <- lift (getStories remote api args) ;;
  ret (text_result (JSON_stringify_pretty stories)).

Definition handleGetStory (args : option Obj) : Async Thrown ToolResult :=
  a <- destructure Other "id" args ;;
  api <- this_shortcutAPI "getStory" ;;
  story <- lift (getStory remote api (get "id" a)) ;;
  ret (text_result (JSON_stringify_pretty story)).

Definition handleCreateStory (args : option Obj) : Async Thrown ToolResult :=
  api <- this_shortcutAPI "createStory" ;;
  story <- lift (createStory remote api args) ;;
  ret (text_result ("Story created successfully!" ++ newline
                    ++ JSON_stringify_pretty story)).

Definition handleUpdateStory (args : option Obj) : Async Thrown ToolResult :=
  a <- destructure Other "id" args ;;
  let id := get "id" a in
  let updates := rest_without "id" a in
  api <- this_shortcutAPI "updateStory" ;;
  story <- lift (updateStory remote api id updates) ;;
  ret (text_result ("Story updated successfully!" ++ newline
                    ++ JSON_stringify_pretty story)).

Definition handleDeleteStory (args : option Obj) : Async Thrown ToolResult :=
  a <- destructure Other "id" args ;;
  let id := get "id" a in
  api <- this_shortcutAPI "deleteStory" ;;
  lift (deleteStory remote api id) ;;;
  ret (text_result ("Story " ++ ToString_opt id ++ " deleted successfully!")).

Definition handleGetEpics : Async Thrown ToolResult :=
  api <- this_shortcutAPI "getEpics" ;;
  epics <- lift (getEpics remote api) ;;
  ret (text_result (JSON_stringify_pretty epics)).

Definition handleGetEpic (args : option Obj) : Async Thrown ToolResult :=
  a <- destructure Other "id" args ;;
  api <- this_shortcutAPI "getEpic" ;;
  epic <- lift (getEpic remote api (get "id" a)) ;;
  ret (text_result (JSON_stringify_pretty epic)).

Definition handleCreateEpic (args : option Obj) : Async Thrown ToolResult :=
  api <- this_shortcutAPI "createEpic" ;;
  epic <- lift (createEpic remote api args) ;;
  ret (text_result ("Epic created successfully!" ++ newline
                    ++ JSON_stringify_pretty epic)).

Definition handleUpdateEpic (args : option Obj) : Async Thrown ToolResult :=
  a <- destructure Other "id" args ;;
  let id := get "id" a in
  let updates := rest_without "id" a in
  api <- this_shortcutAPI "updateEpic" ;;
  epic <- lift (updateEpic remote api id updates) ;;
  ret (text_result ("Epic updated successfully!" ++ newline
                    ++ JSON_stringify_pretty epic)).

Definition handleGetProjects : Async Thrown ToolResult :=
  api <- this_shortcutAPI "getProjects" ;;
  projects <- lift (getProjects remote api) ;;
  ret (text_result (JSON_stringify_pretty projects)).

Definition handleGetProject (args : option Obj) : Async Thrown ToolResult :=
  a <- destructure Other "id" args ;;
  api <- this_shortcutAPI "getProject" ;;
  project <- lift (getProject remote api (get "id" a)) ;;
  ret (text_result (JSON_stringify_pretty project)).

Definition handleCreateProject (args : option Obj) : Async Thrown ToolResult :=
  api <- this_shortcutAPI "createProject" ;;
  project <- lift (createProject remote api args) ;;
  ret (text_result ("Project created successfully!" ++ newline
                    ++ JSON_stringify_pretty project)).

Definition handleGetMembers : Async Thrown ToolResult :=
  api <- this_shortcutAPI "getMembers" ;;
  members <- lift (getMembers remote api) ;;
  ret (text_result (JSON_stringify_pretty members)).

Definition handleGetCurrentMember : Async Thrown ToolResult :=
  api <- this_shortcutAPI "getCurrentMember" ;;
  member <- lift (getCurrentMember remote api) ;;
  ret (text_result (JSON_stringify_pretty member)).

Definition handleGetLabels : Async Thrown ToolResult :=
  api <- this_shortcutAPI "getLabels" ;;
  labels <- lift (getLabels remote api) ;;
  ret (text_result (JSON_stringify_pretty labels)).

Definition handleCreateLabel (args : option Obj) : Async Thrown ToolResult :=
  api <- this_shortcutAPI "createLabel" ;;
  label <- lift (createLabel remote api args) ;;
  ret (text_result ("Label created successfully!" ++ newline
                    ++ JSON_stringify_pretty label)).

Definition handleGetIterations : Async Thrown ToolResult :=
  api <- this_shortcutAPI "getIterations" ;;
  iterations <- lift (getIterations remote api) ;;
  ret (text_result (JSON_stringify_pretty iterations)).

Definition handleGetIteration (args : option Obj) : Async Thrown ToolResult :=
  a <- destructure Other "id" args ;;
  api <- this_shortcutAPI "getIteration" ;;
  iteration <- lift (getIteration remote api (get "id" a)) ;;
  ret (text_result (JSON_stringify_pretty iteration)).

Definition handleCreateIteration (args : option Obj) : Async Thrown ToolResult :=
  api <- this_shortcutAPI "createIteration" ;;
  iteration <- lift (createIteration remote api args) ;;
  ret (text_result ("Iteration created successfully!" ++ newline
                    ++ JSON_stringify_pretty iteration)).

(** [const { query, detail = 'full' } = args]. *)
Definition handleSearch (args : option Obj) : Async Thrown ToolResult :=
  a <- destructure Other "query" args ;;
  let query := get "query" a in
  let detail := match get "detail" a with
                | Some d => d
                | None => JStr "full"
                end in
  api <- this_shortcutAPI "search" ;;
  results <- lift (search remote api query (Some detail)) ;;
  ret (text_result (JSON_stringify_pretty results)).

Definition handleGetWorkflows : Async Thrown ToolResult :=
  api <- this_shortcutAPI "getWorkflows" ;;
  workflows <- lift (getWorkflows remote api) ;;
  ret (text_result (JSON_stringify_pretty workflows)).

(** The configuration gate that opens the call-tool handler. *)
Definition gate (tool : string) : Async Thrown unit :=
  fun s =>
    match shortcutAPI s with
    | None =>
        if negb (String.eqb tool "shortcut_configure")
        then (Throw (McpError InvalidRequest not_configured_message), s)
        else (Return tt, s)
    | Some _ => (Return tt, s)
    end.

(** The [switch] on the tool name. *)
Definition route (tool : string) (args : option Obj)
  : Async Thrown ToolResult :=
  if String.eqb tool "shortcut_configure" then handleConfigure args
  else if String.eqb tool "shortcut_get_stories" then handleGetStories args
  else if String.eqb tool "shortcut_get_story" then handleGetStory args
  else if String.eqb tool "shortcut_create_story" then handleCreateStory args
  else if String.eqb tool "shortcut_update_story" then handleUpdateStory args
  else if String.eqb tool "shortcut_delete_story" then handleDeleteStory args
  else if String.eqb tool "shortcut_get_epics" then handleGetEpics
  else if String.eqb tool "shortcut_get_epic" then handleGetEpic args
  else if String.eqb tool "shortcut_create_epic" then handleCreateEpic args
  else if String.eqb tool "shortcut_update_epic" then handleUpdateEpic args
  else if String.eqb tool "shortcut_get_projects" then handleGetProjects
  else if String.eqb tool "shortcut_get_project" then handleGetProject args
  else if String.eqb tool "shortcut_create_project" then handleCreateProject args
  else if String.eqb tool "shortcut_get_members" then handleGetMembers
  else if String.eqb tool "shortcut_get_current_member" then handleGetCurrentMember
  else if String.eqb tool "shortcut_get_labels" then handleGetLabels
  else if String.eqb tool "shortcut_create_label" then handleCreateLabel args
  else if String.eqb tool "shortcut_get_iterations" then handleGetIterations
  else if String.eqb tool "shortcut_get_iteration" then handleGetIteration args
  else if String.eqb tool "shortcut_create_iteration" then handleCreateIteration args
  else if String.eqb tool "shortcut_search" then handleSearch args
  else if String.eqb tool "shortcut_get_workflows" then handleGetWorkflows
  else throw (McpError MethodNotFound ("Unknown tool: " ++ tool)).

(** The handler registered for [CallToolRequestSchema], on
    [request.params.name] and [request.params.arguments]. *)
Definition callTool (tool : string) (args : option Obj)
  : Async Thrown ToolResult :=
  try_catch
    (gate tool ;;; route tool args)
    (fun error =>
       match error with
       | McpError _ _ => throw error
       | Other e =>
           throw (McpError InternalError
                    ("Error executing " ++ tool ++ ": " ++ message e))
       end).

End Server.

(* ================================================================== *)
(** ** Vocabulary of the statements *)

(** How the promise of [makeRequest] settles on a fetch outcome. *)
Definition settle (o : FetchOutcome) : Result JsError JSON :=
  match o with
  | Rejected m => Throw (Error m)
  | Responded r =>
      if negb (ok r) then Throw (api_error r)
      else match json r with
           | Parsed v => Return v
           | SyntaxError m => Throw (Error m)
           end
  end.

(** A client result on its way out of a handler that formats with [fmt]. *)
Definition surfaced (fmt : JSON -> ToolResult) (r : Result JsError JSON)
  : Result Thrown ToolResult :=
  match r with
  | Return v => Return (fmt v)
  | Throw e => Throw (Other e)
  end.

(** The [catch] clause of the call-tool handler, as a map on errors. *)
Definition rethrow (tool : string) (error : Thrown) : Thrown :=
  match error with
  | McpError _ _ => error
  | Other e =>
      McpError InternalError ("Error executing " ++ tool ++ ": " ++ message e)
  end.

(** What running a handler from state [s] can look like: it failed before
    reaching the network, or it issued the one request [q] and its result
    is the remote answer, formatted. *)
Inductive Handled (remote : Remote) (s : State)
  : Result Thrown ToolResult * State -> Prop :=
| handled_local (e : Thrown) : Handled remote s (Throw e, s)
| handled_remote (q : Request) (fmt : JSON -> ToolResult) :
    Handled remote s (surfaced fmt (settle (remote (sent s) q)), pushed s q).

Definition in_catalog (tool : string) : bool :=
  existsb (String.eqb tool) catalog.


(** The filters [getStories] looks at. *)
Definition story_filters : list string :=
  ["project_id"; "epic_id"; "includes_description"; "workflow_state_id"].

(** Sample data for the concrete instances. *)
Definition sample_api : ShortcutAPI :=
  new_ShortcutAPI {| apiToken := Some (JStr "token-1"); baseUrl := None |}.

Definition fresh : State := {| shortcutAPI := None; sent := [] |}.

Definition ready : State := {| shortcutAPI := Some sample_api; sent := [] |}.

Definition respond (r : Response) : Remote := fun _ _ => Responded r.

Definition unauthorized : Response :=
  {| status := 401; text := "Unauthorized";
     json := SyntaxError "Unexpected token 'U'" |}.

Definition not_found : Response :=
  {| status := 404; text := "Not Found";
     json := SyntaxError "Unexpected token 'N'" |}.

(** A success without content, as a DELETE is answered: parsing the empty
    body is a [SyntaxError]. *)
Definition no_content : Response :=
  {| status := 204; text := "";
     json := SyntaxError "Unexpected end of JSON input" |}.

Definition member_payload : JSON :=
  JObj [("id", JStr "m-1"); ("mention_name", JStr "ada")].

Definition member_found : Response :=
  {| status := 200; text := JSON_stringify member_payload;
     json := Parsed member_payload |}.

(** The text of a read tool, and of a write tool that opens with a
    confirmation line. *)
Definition plain (v : JSON) : ToolResult :=
  text_result (JSON_stringify_pretty v).

Definition prefixed (line : string) (v : JSON) : ToolResult :=
  text_result (line ++ newline ++ JSON_stringify_pretty v).

Definition detail_or_full (a : Obj) : JSON :=
  match get "detail" a with
  | Some d => d
  | None => JStr "full"
  end.

(** The REST table: which endpoint and request options a tool call leads
    to, and how the JSON answer becomes the tool's text.  An entry that
    reads a property of the arguments needs the argument object. *)
Inductive Issues
  : string -> option Obj -> string -> RequestInit -> (JSON -> ToolResult)
    -> Prop :=
| issues_get_stories args :
    Issues "shortcut_get_stories" args
      ("/stories/search" ++ getStories_query args)
      (with_body "POST" (Some (JSON_stringify (or_empty args)))) plain
| issues_get_story a :
    Issues "shortcut_get_story" (Some a)
      ("/stories/" ++ ToString_opt (get "id" a)) no_options plain
| issues_create_story args :
    Issues "shortcut_create_story" args "/stories"
      (with_body "POST" (stringify_arg args))
      (prefixed "Story created successfully!")
| issues_update_story a :
    Issues "shortcut_update_story" (Some a)
      ("/stories/" ++ ToString_opt (get "id" a))
      (with_body "PUT" (Some (JSON_stringify (JObj (rest_without "id" a)))))
      (prefixed "Story updated successfully!")
| issues_delete_story a :
    Issues "shortcut_delete_story" (Some a)
      ("/stories/" ++ ToString_opt (get "id" a)) (with_method "DELETE")
      (fun _ => text_result ("Story " ++ ToString_opt (get "id" a)
                             ++ " deleted successfully!"))
| issues_get_epics args :
    Issues "shortcut_get_epics" args "/epics" no_options plain
| issues_get_epic a :
    Issues "shortcut_get_epic" (Some a)
      ("/epics/" ++ ToString_opt (get "id" a)) no_options plain
| issues_create_epic args :
    Issues "shortcut_create_epic" args "/epics"
      (with_body "POST" (stringify_arg args))
      (prefixed "Epic created successfully!")
| issues_update_epic a :
    Issues "shortcut_update_epic" (Some a)
      ("/epics/" ++ ToString_opt (get "id" a))
      (with_body "PUT" (Some (JSON_stringify (JObj (rest_without "id" a)))))
      (prefixed "Epic updated successfully!")
| issues_get_projects args :
    Issues "shortcut_get_projects" args "/projects" no_options plain
| issues_get_project a :
    Issues "shortcut_get_project" (Some a)
      ("/projects/" ++ ToString_opt (get "id" a)) no_options plain
| issues_create_project args :
    Issues "shortcut_create_project" args "/projects"
      (with_body "POST" (stringify_arg args))
      (prefixed "Project created successfully!")
| issues_get_members args :
    Issues "shortcut_get_members" args "/members" no_options plain
| issues_get_current_member args :
    Issues "shortcut_get_current_member" args "/member" no_options plain
| issues_get_labels args :
    Issues "shortcut_get_labels" args "/labels" no_options plain
| issues_create_label args :
    Issues "shortcut_create_label" args "/labels"
      (with_body "POST" (stringify_arg args))
      (prefixed "Label created successfully!")
| issues_get_iterations args :
    Issues "shortcut_get_iterations" args "/iterations" no_options plain
| issues_get_iteration a :
    Issues "shortcut_get_iteration" (Some a)
      ("/iterations/" ++ ToString_opt (get "id" a)) no_options plain
| issues_create_iteration args :
    Issues "shortcut_create_iteration" args "/iterations"
      (with_body "POST" (stringify_arg args))
      (prefixed "Iteration created successfully!")
| issues_search a :
    Issues "shortcut_search" (Some a)
      ("/search?query=" ++ encodeURIComponent (ToString_opt (get "query" a))
       ++ "&detail=" ++ ToString (detail_or_full a))
      no_options plain
| issues_get_workflows args :
    Issues "shortcut_get_workflows" args "/workflows" no_options plain.

(** The tools whose handler takes no parameter. *)
Definition listing_tools : list string :=
  ["shortcut_get_epics"; "shortcut_get_projects"; "shortcut_get_members";
   "shortcut_get_current_member"; "shortcut_get_labels";
   "shortcut_get_iterations"; "shortcut_get_workflows"].

(** The tools whose handler opens by destructuring its parameter. *)
Definition destructuring_tools : list string :=
  ["shortcut_configure"; "shortcut_get_story"; "shortcut_update_story";
   "shortcut_delete_story"; "shortcut_get_epic"; "shortcut_update_epic";
   "shortcut_get_project"; "shortcut_get_iteration"; "shortcut_search"].

(** The tools that send their whole argument object as a POST body. *)
Definition posting_tools : list string :=
  ["shortcut_get_stories"; "shortcut_create_story"; "shortcut_create_epic";
   "shortcut_create_project"; "shortcut_create_label";
   "shortcut_create_iteration"].

(** The host delivers calls one at a time; the state after a sequence. *)
Fixpoint run_calls (remote : Remote) (calls : list (string * option Obj))
  (s : State) : State :=
  match calls with
  | [] => s
  | (tool, args) :: rest =>
      run_calls remote rest (snd (callTool remote tool args s))
  end.





(** A remote service that rejects a DELETE and answers anything else
    with the sample member. *)
Definition refuse_delete : Remote :=
  fun _ q =>
    match meth q with
    | Some "DELETE" => Responded not_found
    | _ => Responded member_found
    end.

Definition offline : Remote := fun _ _ => Rejected "fetch failed".

Definition garbled : Response :=
  {| status := 200; text := "<html>";
     json := SyntaxError "Unexpected token '<'" |}.

(* ================================================================== *)
(** ** The monad and the client *)

Lemma app_cons_not_self {A} (l : list A) (x : A) (r : list A) :
  l <> (l ++ x :: r)%list.
Proof.
  intro H. apply (f_equal (@length A)) in H.
  rewrite length_app in H. simpl in H. lia.
Qed.

Lemma app_single_inv {A} (l : list A) (x y : A) (r : list A) :
  (l ++ [x])%list = (l ++ y :: r)%list -> x = y /\ r = [].
Proof.
  intro H. apply app_inv_head in H. inversion H. auto.
Qed.

Lemma makeRequest_run remote this endpoint options s :
  makeRequest remote this endpoint options s
  = (settle (remote (sent s) (request_of this endpoint options)),
     pushed s (request_of this endpoint options)).
Proof.
  unfold makeRequest, bind, fetch, settle.
  destruct (remote (sent s) (request_of this endpoint options)) as [m | r].
  - reflexivity.
  - destruct (negb (ok r)); [reflexivity |].
    unfold response_json. destruct (json r); reflexivity.
Qed.

Lemma bind_destructure {A} (k : string) (args : option Obj)
  (f : Obj -> Async Thrown A) (s : State) :
  (a <- destructure Other k args ;; f a) s
  = match args with
    | Some a => f a s
    | None =>
        (Throw (Other (Error ("Cannot destructure property '" ++ k
                              ++ "' of 'args' as it is undefined."))), s)
    end.
Proof. destruct args; reflexivity. Qed.

Lemma bind_this_shortcutAPI {A} (m : string)
  (f : ShortcutAPI -> Async Thrown A) (s : State) :
  (api <- this_shortcutAPI m ;; f api) s
  = match shortcutAPI s with
    | Some api => f api s
    | None =>
        (Throw (Other (Error ("Cannot read properties of null (reading '"
                              ++ m ++ "')"))), s)
    end.
Proof.
  unfold bind, this_shortcutAPI. destruct (shortcutAPI s); reflexivity.
Qed.

(** A handler's tail: await one client request, format its value. *)
Lemma await_makeRequest remote this endpoint options
  (fmt : JSON -> ToolResult) (s : State) :
  (v <- lift (makeRequest remote this endpoint options) ;; ret (fmt v)) s
  = (surfaced fmt (settle (remote (sent s) (request_of this endpoint options))),
     pushed s (request_of this endpoint options)).
Proof.
  unfold bind, lift, try_catch. rewrite makeRequest_run.
  destruct (settle _); reflexivity.
Qed.

Lemma await_deleteStory remote this id (res : ToolResult) (s : State) :
  (lift (deleteStory remote this id) ;;; ret res) s
  = (surfaced (fun _ => res)
       (settle (remote (sent s)
                  (request_of this ("/stories/" ++ ToString_opt id)
                              (with_method "DELETE")))),
     pushed s (request_of this ("/stories/" ++ ToString_opt id)
                          (with_method "DELETE"))).
Proof.
  unfold deleteStory, bind, lift, try_catch. rewrite makeRequest_run.
  destruct (settle _); reflexivity.
Qed.

Lemma in_catalog_In (tool : string) :
  in_catalog tool = true <-> In tool catalog.
Proof.
  unfold in_catalog. rewrite existsb_exists. split.
  - intros [x [Hin Heq]]. apply String.eqb_eq in Heq. now subst.
  - intro Hin. exists tool. split; [assumption | apply String.eqb_refl].
Qed.

(* ================================================================== *)
(** ** Routing *)

Ltac head_case :=
  match goal with
  | |- context [(if String.eqb ?t ?l then _ else _)] =>
      destruct (String.eqb_spec t l) as [-> | ?]; cbv beta iota
  end.

Lemma route_unknown remote tool args :
  ~ In tool catalog ->
  route remote tool args
  = throw (McpError MethodNotFound ("Unknown tool: " ++ tool)).
Proof.
  intro H. unfold route.
  repeat (head_case;
          [exfalso; apply H; apply in_catalog_In; reflexivity |]).
  reflexivity.
Qed.

Ltac run_handler args s :=
  unfold handleGetStories, handleGetStory, handleCreateStory,
    handleUpdateStory, handleDeleteStory, handleGetEpics, handleGetEpic,
    handleCreateEpic, handleUpdateEpic, handleGetProjects, handleGetProject,
    handleCreateProject, handleGetMembers, handleGetCurrentMember,
    handleGetLabels, handleCreateLabel, handleGetIterations,
    handleGetIteration, handleCreateIteration, handleSearch,
    handleGetWorkflows;
  unfold getStories, getStory, createStory, updateStory, getEpics, getEpic,
    createEpic, updateEpic, getProjects, getProject, createProject,
    getMembers, getCurrentMember, getLabels, createLabel, getIterations,
    getIteration, createIteration, search, getWorkflows;
  try (rewrite bind_destructure; destruct args; [| apply handled_local]);
  cbv beta zeta;
  rewrite bind_this_shortcutAPI;
  destruct (shortcutAPI s); [| apply handled_local];
  first [rewrite await_makeRequest | rewrite await_deleteStory];
  apply handled_remote.

(** Every tool but the configuration tool either fails locally or issues
    exactly one request and reports its outcome. *)
Lemma route_handled remote tool args s :
  tool <> "shortcut_configure" ->
  Handled remote s (route remote tool args s).
Proof.
  intro H. unfold route.
  head_case; [congruence |].
  repeat (head_case; [solve [run_handler args s] |]).
  apply handled_local.
Qed.

Lemma callTool_gate_closed remote tool args s :
  shortcutAPI s = None ->
  tool <> "shortcut_configure" ->
  callTool remote tool args s
  = (Throw (McpError InvalidRequest not_configured_message), s).
Proof.
  intros Hs Ht. unfold callTool, try_catch, bind, gate. rewrite Hs.
  destruct (String.eqb_spec tool "shortcut_configure"); [contradiction |].
  reflexivity.
Qed.

Lemma callTool_gate_open remote tool args s :
  shortcutAPI s <> None \/ tool = "shortcut_configure" ->
  callTool remote tool args s
  = (match fst (route remote tool args s) with
     | Return a => Return a
     | Throw e => Throw (rethrow tool e)
     end,
     snd (route remote tool args s)).
Proof.
  intro H. unfold callTool, try_catch, bind, gate.
  assert (G : match shortcutAPI s with
              | Some _ => (Return tt, s)
              | None =>
                  if negb (String.eqb tool "shortcut_configure")
                  then (Throw (McpError InvalidRequest not_configured_message), s)
                  else (@Return Thrown unit tt, s)
              end = (Return tt, s)).
  { destruct (shortcutAPI s) eqn:E; [reflexivity |].
    destruct H as [H | ->]; [congruence | reflexivity]. }
  rewrite G.
  destruct (route remote tool args s) as [[a | [c m | e]] s']; reflexivity.
Qed.

(* ================================================================== *)
(** ** Configuration *)

Lemma getCurrentMember_settles remote this s :
  fst (getCurrentMember remote this s)
  = settle (remote (sent s) (request_of this "/member" no_options)).
Proof. unfold getCurrentMember. rewrite makeRequest_run. reflexivity. Qed.

(** [handleConfigure] on an argument object: the new client is stored,
    probed, and kept or dropped on the probe's outcome. *)
Lemma handleConfigure_run remote a s :
  handleConfigure remote (Some a) s
  = match settle (remote (sent s)
                    (request_of (new_ShortcutAPI (config_of_args a))
                                "/member" no_options)) with
    | Return _ =>
        (Return (text_result "Shortcut API configured successfully!"),
         {| shortcutAPI := Some (new_ShortcutAPI (config_of_args a));
            sent := (sent s ++ [request_of (new_ShortcutAPI (config_of_args a))
                                           "/member" no_options])%list |})
    | Throw e =>
        (Throw (McpError InvalidRequest
                  ("Failed to configure Shortcut API: " ++ message e)),
         {| shortcutAPI := None;
            sent := (sent s ++ [request_of (new_ShortcutAPI (config_of_args a))
                                           "/member" no_options])%list |})
    end.
Proof.
  unfold handleConfigure. rewrite bind_destructure. cbv beta zeta.
  unfold bind at 1. unfold set_shortcutAPI at 1.
  unfold try_catch, bind, getCurrentMember. rewrite makeRequest_run.
  cbn [sent shortcutAPI pushed].
  destruct (settle _); reflexivity.
Qed.

Lemma callTool_configure remote a s :
  callTool remote "shortcut_configure" (Some a) s
  = handleConfigure remote (Some a) s.
Proof.
  rewrite callTool_gate_open by (right; reflexivity).
  change (route remote "shortcut_configure" (Some a) s)
    with (handleConfigure remote (Some a) s).
  rewrite handleConfigure_run. destruct (settle _); reflexivity.
Qed.

(* ================================================================== *)
(** ** Claims *)

(** C1, as stated, fails: with no client configured the gate answers
    before the tool name is looked up, so an unknown name gets the
    Invalid-Request error of the gate, not Method-Not-Found. *)
Lemma unknown_tool_unconfigured_is_not_method_not_found :
  ~ (forall remote tool args s,
        ~ In tool catalog ->
        fst (callTool remote tool args s)
        = Throw (McpError MethodNotFound ("Unknown tool: " ++ tool))).
Proof.
  intro H.
  specialize (H (respond not_found) "shortcut_archive_story" None fresh).
  assert (N : ~ In "shortcut_archive_story" catalog).
  { intro Hin. apply in_catalog_In in Hin. discriminate Hin. }
  specialize (H N).
  rewrite callTool_gate_closed in H by (reflexivity || discriminate).
  discriminate H.
Qed.

(** C1, amended: for every tool name outside the catalog, a call in the
    Configured state fails with Method-Not-Found naming the tool, and a
    call in the Unconfigured state fails with the gate's Invalid-Request
    error; neither issues a request nor changes the state. *)
Theorem unknown_tool_by_state remote tool args s :
  ~ In tool catalog ->
  (Configured s ->
   callTool remote tool args s
   = (Throw (McpError MethodNotFound ("Unknown tool: " ++ tool)), s))
  /\ (Unconfigured s ->
      callTool remote tool args s
      = (Throw (McpError InvalidRequest
                  "Shortcut API not configured. Please run shortcut_configure first."),
         s)).
Proof.
  intro H. split; intro Hs.
  - rewrite callTool_gate_open by (left; exact Hs).
    rewrite route_unknown by exact H. reflexivity.
  - apply callTool_gate_closed; [exact Hs |].
    intros ->. apply H. apply in_catalog_In. reflexivity.
Qed.

Lemma unknown_tool_by_state_witness :
  callTool (respond not_found) "shortcut_archive_story" None ready
  = (Throw (McpError MethodNotFound "Unknown tool: shortcut_archive_story"),
     ready)
  /\ callTool (respond not_found) "shortcut_archive_story" None fresh
     = (Throw (McpError InvalidRequest
                 "Shortcut API not configured. Please run shortcut_configure first."),
        fresh).
Proof.
  assert (N : ~ In "shortcut_archive_story" catalog).
  { intro Hin. apply in_catalog_In in Hin. discriminate Hin. }
  destruct (unknown_tool_by_state (respond not_found)
              "shortcut_archive_story" None ready N) as [Hc _].
  destruct (unknown_tool_by_state (respond not_found)
              "shortcut_archive_story" None fresh N) as [_ Hu].
  split.
  - apply Hc. discriminate.
  - apply Hu. reflexivity.
Defined.

(** C2: every catalog tool other than the configuration tool, called
    while Unconfigured, fails with the Invalid-Request error that tells
    the caller to configure first; the state, and with it the trace of
    HTTP requests, is unchanged, whatever the remote service would say. *)
Theorem gate_blocks_unconfigured remote tool args s :
  In tool catalog ->
  tool <> "shortcut_configure" ->
  Unconfigured s ->
  callTool remote tool args s
  = (Throw (McpError InvalidRequest
              "Shortcut API not configured. Please run shortcut_configure first."),
     s)
  /\ sent (snd (callTool remote tool args s)) = sent s.
Proof.
  intros _ Ht Hs.
  rewrite (callTool_gate_closed remote tool args s Hs Ht).
  split; reflexivity.
Qed.

Lemma gate_blocks_unconfigured_witness :
  callTool (respond member_found) "shortcut_get_story"
    (Some [("id", JNum 42)]) fresh
  = (Throw (McpError InvalidRequest
              "Shortcut API not configured. Please run shortcut_configure first."),
     fresh)
  /\ sent (snd (callTool (respond member_found) "shortcut_get_story"
                  (Some [("id", JNum 42)]) fresh)) = [].
Proof.
  apply (gate_blocks_unconfigured (respond member_found) "shortcut_get_story"
           (Some [("id", JNum 42)]) fresh).
  - apply in_catalog_In. reflexivity.
  - discriminate.
  - reflexivity.
Defined.

(** C3: when the identity probe of a configure call fails with error [e],
    the call fails with an Invalid-Request error whose message embeds the
    message of [e], the dispatcher is Unconfigured afterward, and every
    following call of another tool fails with Invalid-Request. *)
Theorem configure_probe_failure remote a s e :
  fst (getCurrentMember remote (new_ShortcutAPI (config_of_args a)) s)
  = Throw e ->
  fst (callTool remote "shortcut_configure" (Some a) s)
  = Throw (McpError InvalidRequest
             ("Failed to configure Shortcut API: " ++ message e))
  /\ Unconfigured (snd (callTool remote "shortcut_configure" (Some a) s))
  /\ forall tool args,
       tool <> "shortcut_configure" ->
       fst (callTool remote tool args
              (snd (callTool remote "shortcut_configure" (Some a) s)))
       = Throw (McpError InvalidRequest
                  "Shortcut API not configured. Please run shortcut_configure first.").
Proof.
  intro Hprobe. rewrite getCurrentMember_settles in Hprobe.
  rewrite callTool_configure, handleConfigure_run, Hprobe.
  cbn [fst snd]. repeat split.
  intros tool args Ht.
  rewrite callTool_gate_closed by (reflexivity || exact Ht).
  reflexivity.
Qed.

Lemma configure_probe_failure_witness :
  fst (callTool (respond unauthorized) "shortcut_configure"
         (Some [("apiToken", JStr "expired")]) fresh)
  = Throw (McpError InvalidRequest
             "Failed to configure Shortcut API: Shortcut API error (401): Unauthorized")
  /\ fst (callTool (respond unauthorized) "shortcut_get_epics" None
            (snd (callTool (respond unauthorized) "shortcut_configure"
                    (Some [("apiToken", JStr "expired")]) fresh)))
     = Throw (McpError InvalidRequest
                "Shortcut API not configured. Please run shortcut_configure first.").
Proof.
  destruct (configure_probe_failure (respond unauthorized)
              [("apiToken", JStr "expired")] fresh
              (Error "Shortcut API error (401): Unauthorized"))
    as [Hfail [_ Hnext]].
  - reflexivity.
  - split.
    + exact Hfail.
    + apply Hnext. discriminate.
Defined.





(** C4: a response with a non-success status makes the client operation
    fail with an error carrying the status code and the raw body text,
    after that one request.  At the dispatcher, for every tool other than
    the configuration tool: if the call issued a request and the remote
    service answered it with such a response, no further request was
    issued, the caller gets an Internal-Error naming the tool and carrying
    the client's message, and the dispatcher state is as before. *)
Theorem remote_error_surfaces remote r :
  ok r = false ->
  (forall this endpoint options s,
      remote (sent s) (request_of this endpoint options) = Responded r ->
      makeRequest remote this endpoint options s
      = (Throw (Error ("Shortcut API error (" ++ Number_toString (status r)
                       ++ "): " ++ text r)),
         pushed s (request_of this endpoint options)))
  /\ (forall tool args s q rest,
         tool <> "shortcut_configure" ->
         sent (snd (callTool remote tool args s)) = (sent s ++ q :: rest)%list ->
         remote (sent s) q = Responded r ->
         rest = []
         /\ fst (callTool remote tool args s)
            = Throw (McpError InternalError
                       ("Error executing " ++ tool ++ ": Shortcut API error ("
                        ++ Number_toString (status r) ++ "): " ++ text r))
         /\ shortcutAPI (snd (callTool remote tool args s)) = shortcutAPI s).
Proof.
  intro Hok. split.
  - intros this endpoint options s Hr.
    rewrite makeRequest_run, Hr. unfold settle. rewrite Hok. reflexivity.
  - intros tool args s q rest Ht Hsent Hr.
    destruct (shortcutAPI s) as [api |] eqn:Hs.
    + rewrite callTool_gate_open in * by (left; congruence).
      cbn [fst snd] in *.
      pose proof (route_handled remote tool args s Ht) as Hh.
      destruct Hh as [e | q0 fmt]; cbn [fst snd] in *.
      * exfalso. exact (app_cons_not_self _ _ _ Hsent).
      * apply app_single_inv in Hsent. destruct Hsent as [-> ->].
        rewrite Hr. unfold settle. rewrite Hok.
        cbn [negb surfaced rethrow api_error message shortcutAPI pushed].
        repeat split. exact Hs.
    + rewrite callTool_gate_closed in Hsent by assumption.
      exfalso. exact (app_cons_not_self _ _ _ Hsent).
Qed.

Lemma remote_error_surfaces_witness :
  callTool (respond not_found) "shortcut_get_story"
    (Some [("id", JNum 42)]) ready
  = (Throw (McpError InternalError
              "Error executing shortcut_get_story: Shortcut API error (404): Not Found"),
     pushed ready (request_of sample_api "/stories/42" no_options)).
Proof.
  destruct (remote_error_surfaces (respond not_found) not_found) as [_ H].
  - reflexivity.
  - destruct (H "shortcut_get_story" (Some [("id", JNum 42)]) ready
                (request_of sample_api "/stories/42" no_options) [])
      as [_ [Hres _]].
    + discriminate.
    + reflexivity.
    + reflexivity.
    + apply injective_projections; [exact Hres | reflexivity].
Defined.

(** C5, on the code: a delete_story call whose DELETE is answered with a
    success status and an empty body does not return the confirmation.
    [makeRequest] parses the body of every successful response, parsing
    the empty body fails, and the caller gets an Internal-Error after the
    one request. *)
Theorem delete_story_without_body_fails :
  callTool (respond no_content) "shortcut_delete_story"
    (Some [("id", JNum 7)]) ready
  = (Throw (McpError InternalError
              "Error executing shortcut_delete_story: Unexpected end of JSON input"),
     {| shortcutAPI := Some sample_api;
        sent := [ {| url := "https://api.app.shortcut.com/api/v3/stories/7";
                     meth := Some "DELETE";
                     headers := [("Content-Type", Some (JStr "application/json"));
                                 ("Shortcut-Token", Some (JStr "token-1"))];
                     body := None |} ] |}).
Proof. vm_compute. reflexivity. Qed.




















(* ================================================================== *)
(** ** The REST table *)

Ltac unfold_handlers :=
  unfold handleGetStories, handleGetStory, handleCreateStory,
    handleUpdateStory, handleDeleteStory, handleGetEpics, handleGetEpic,
    handleCreateEpic, handleUpdateEpic, handleGetProjects, handleGetProject,
    handleCreateProject, handleGetMembers, handleGetCurrentMember,
    handleGetLabels, handleCreateLabel, handleGetIterations,
    handleGetIteration, handleCreateIteration, handleSearch,
    handleGetWorkflows;
  unfold getStories, getStory, createStory, updateStory, getEpics, getEpic,
    createEpic, updateEpic, getProjects, getProject, createProject,
    getMembers, getCurrentMember, getLabels, createLabel, getIterations,
    getIteration, createIteration, search, getWorkflows.

Ltac tabulate args Hs :=
  unfold_handlers;
  first
    [ rewrite bind_destructure; destruct args;
      [ cbv beta zeta; rewrite bind_this_shortcutAPI, Hs;
        first [rewrite await_makeRequest | rewrite await_deleteStory];
        right; right; do 3 eexists; split; [constructor | reflexivity]
      | right; left; split;
        [ cbn [destructuring_tools In]; tauto
        | split; [reflexivity | eexists; reflexivity] ] ]
    | rewrite bind_this_shortcutAPI, Hs;
      first [rewrite await_makeRequest | rewrite await_deleteStory];
      right; right; do 3 eexists; split; [constructor | reflexivity] ].

(** With a client configured, a call of anything but the configuration
    tool is routed in one of three ways: the name is unknown; the handler
    destructures arguments that are absent; or the handler issues the one
    request of the REST table. *)
Lemma route_issues remote tool args s api :
  shortcutAPI s = Some api ->
  tool <> "shortcut_configure" ->
  (~ In tool catalog
   /\ route remote tool args s
      = (Throw (McpError MethodNotFound ("Unknown tool: " ++ tool)), s))
  \/ (In tool destructuring_tools /\ args = None
      /\ exists m, route remote tool args s = (Throw (Other (Error m)), s))
  \/ (exists endpoint options fmt,
         Issues tool args endpoint options fmt
         /\ route remote tool args s
            = (surfaced fmt
                 (settle (remote (sent s) (request_of api endpoint options))),
               pushed s (request_of api endpoint options))).
Proof.
  intros Hs Ht. unfold route.
  head_case; [congruence |].
  repeat (head_case; [solve [tabulate args Hs] |]).
  left. split; [| reflexivity].
  intro Hin. cbn [catalog tools map name In] in Hin. intuition congruence.
Qed.

Lemma call_outcome_cases remote tool args s api :
  shortcutAPI s = Some api ->
  tool <> "shortcut_configure" ->
  (~ In tool catalog
   /\ callTool remote tool args s
      = (Throw (McpError MethodNotFound ("Unknown tool: " ++ tool)), s))
  \/ (In tool destructuring_tools /\ args = None
      /\ exists m,
           callTool remote tool args s
           = (Throw (McpError InternalError
                       ("Error executing " ++ tool ++ ": " ++ m)), s))
  \/ (exists endpoint options fmt,
         Issues tool args endpoint options fmt
         /\ callTool remote tool args s
            = (match settle (remote (sent s)
                               (request_of api endpoint options)) with
               | Return v => Return (fmt v)
               | Throw e =>
                   Throw (McpError InternalError
                            ("Error executing " ++ tool ++ ": " ++ message e))
               end,
               pushed s (request_of api endpoint options))).
Proof.
  intros Hs Ht.
  rewrite callTool_gate_open by (left; congruence).
  destruct (route_issues remote tool args s api Hs Ht)
    as [[Hout ->] | [[Hin [Hargs [m ->]]] | [ep [opts [fmt [Hi ->]]]]]].
  - left. split; [exact Hout | reflexivity].
  - right. left. repeat split; try assumption. exists m. reflexivity.
  - right. right. exists ep, opts, fmt. split; [exact Hi |].
    cbn [fst snd]. destruct (settle _); reflexivity.
Qed.



Lemma catalog_failure_cause remote tool args s e :
  Configured s ->
  In tool catalog ->
  tool <> "shortcut_configure" ->
  fst (callTool remote tool args s) = Throw e ->
  exists m,
    e = McpError InternalError ("Error executing " ++ tool ++ ": " ++ m).
Proof.
  intros Hc Hin Ht He.
  destruct (shortcutAPI s) as [api |] eqn:Hs; [| contradiction].
  destruct (call_outcome_cases remote tool args s api Hs Ht)
    as [[Hout _] | [[_ [_ [m Hm]]] | [ep [opts [fmt [_ Hm]]]]]].
  - contradiction.
  - rewrite Hm in He. cbn [fst] in He. injection He as <-. now exists m.
  - rewrite Hm in He. cbn [fst] in He.
    destruct (settle _) as [v | e0]; [discriminate |].
    injection He as <-. now exists (message e0).
Qed.

(** X2: with a client configured, a catalog tool other than the
    configuration tool fails in one way only: an Internal-Error whose
    message opens with the tool's name.  Invalid-Request and
    Method-Not-Found cannot come out of such a call. *)
Theorem catalog_tool_failure_is_internal remote tool args s e :
  Configured s ->
  In tool catalog ->
  tool <> "shortcut_configure" ->
  fst (callTool remote tool args s) = Throw e ->
  exists m,
    e = McpError InternalError ("Error executing " ++ tool ++ ": " ++ m).
Proof. intros. eapply catalog_failure_cause; eassumption. Qed.

Lemma catalog_tool_failure_is_internal_witness :
  exists m,
    McpError InternalError "Error executing shortcut_get_labels: fetch failed"
    = McpError InternalError
        ("Error executing " ++ "shortcut_get_labels" ++ ": " ++ m).
Proof.
  apply (catalog_tool_failure_is_internal offline "shortcut_get_labels" None
           ready).
  - discriminate.
  - apply in_catalog_In. reflexivity.
  - discriminate.
  - reflexivity.
Defined.

Lemma call_frame_step remote tool args s :
  tool <> "shortcut_configure" ->
  shortcutAPI (snd (callTool remote tool args s)) = shortcutAPI s
  /\ (sent (snd (callTool remote tool args s)) = sent s
      \/ exists q,
           sent (snd (callTool remote tool args s)) = (sent s ++ [q])%list).
Proof.
  intro Ht.
  destruct (shortcutAPI s) as [api |] eqn:Hs.
  - destruct (call_outcome_cases remote tool args s api Hs Ht)
      as [[_ ->] | [[_ [_ [m ->]]] | [ep [opts [fmt [_ ->]]]]]];
      cbn [snd pushed shortcutAPI sent].
    + split; [exact Hs | now left].
    + split; [exact Hs | now left].
    + split; [exact Hs | right; eexists; reflexivity].
  - rewrite callTool_gate_closed by assumption.
    cbn [snd]. split; [exact Hs | now left].
Qed.

(** X3: whatever the state and the remote answer, a call of a tool other
    than the configuration tool leaves the [shortcutAPI] field as it was
    and adds at most one request to the trace. *)
Theorem call_frame remote tool args s :
  tool <> "shortcut_configure" ->
  shortcutAPI (snd (callTool remote tool args s)) = shortcutAPI s
  /\ (sent (snd (callTool remote tool args s)) = sent s
      \/ exists q,
           sent (snd (callTool remote tool args s)) = (sent s ++ [q])%list).
Proof. intros. eapply call_frame_step; eassumption. Qed.

Lemma call_frame_witness :
  shortcutAPI (snd (callTool (respond not_found) "shortcut_delete_story"
                      (Some [("id", JNum 7)]) ready))
  = Some sample_api
  /\ (sent (snd (callTool (respond not_found) "shortcut_delete_story"
                   (Some [("id", JNum 7)]) ready)) = []
      \/ exists q,
           sent (snd (callTool (respond not_found) "shortcut_delete_story"
                        (Some [("id", JNum 7)]) ready)) = [q]).
Proof.
  apply (call_frame (respond not_found) "shortcut_delete_story"
           (Some [("id", JNum 7)]) ready).
  discriminate.
Defined.

Lemma issues_options tool args endpoint options fmt :
  Issues tool args endpoint options fmt ->
  init_headers options = []
  /\ (init_method options = Some "DELETE" -> tool = "shortcut_delete_story")
  /\ (init_method options = Some "PUT" ->
      tool = "shortcut_update_story" \/ tool = "shortcut_update_epic")
  /\ (init_method options = Some "POST" -> In tool posting_tools)
  /\ (init_method options = None -> init_body options = None)
  /\ In (init_method options)
        [None; Some "POST"; Some "PUT"; Some "DELETE"].
Proof.
  intro H. destruct H;
    cbn [init_headers init_method init_body no_options with_method with_body
         posting_tools In];
    repeat split; intros; try discriminate; tauto.
Qed.

(** The request of a call that added one to the trace. *)
Lemma issued_request remote tool args s api q :
  shortcutAPI s = Some api ->
  tool <> "shortcut_configure" ->
  sent (snd (callTool remote tool args s)) = (sent s ++ [q])%list ->
  exists endpoint options fmt,
    Issues tool args endpoint options fmt
    /\ q = request_of api endpoint options.
Proof.
  intros Hs Ht Hsent.
  destruct (call_outcome_cases remote tool args s api Hs Ht)
    as [[_ H] | [[_ [_ [m H]]] | [ep [opts [fmt [Hi H]]]]]];
    rewrite H in Hsent; cbn [snd pushed sent] in Hsent.
  - exfalso. exact (app_cons_not_self _ _ _ Hsent).
  - exfalso. exact (app_cons_not_self _ _ _ Hsent).
  - apply app_single_inv in Hsent. destruct Hsent as [<- _].
    now exists ep, opts, fmt.
Qed.

(** X4: the HTTP method of a request tells which tool issued it.  For
    any call that added request [q] to the trace, in any state: a DELETE
    comes from delete_story only, a PUT from update_story or update_epic
    only (no tool reaches the client's updateProject), a POST from
    get_stories or a create tool only, and any other request is a GET
    without a body. *)
Theorem request_method_by_tool remote tool args s q :
  sent (snd (callTool remote tool args s)) = (sent s ++ [q])%list ->
  (meth q = Some "DELETE" -> tool = "shortcut_delete_story")
  /\ (meth q = Some "PUT" ->
      tool = "shortcut_update_story" \/ tool = "shortcut_update_epic")
  /\ (meth q = Some "POST" -> In tool posting_tools)
  /\ (meth q = None -> body q = None)
  /\ In (meth q) [None; Some "POST"; Some "PUT"; Some "DELETE"].
Proof.
  intro Hsent.
  destruct (String.eqb_spec tool "shortcut_configure") as [-> | Ht].
  - assert (Hq : meth q = None /\ body q = None).
    { destruct args as [a |].
      - rewrite callTool_configure, handleConfigure_run in Hsent.
        destruct (settle _); cbn [snd sent] in Hsent;
          apply app_single_inv in Hsent; destruct Hsent as [<- _];
          split; reflexivity.
      - exfalso. rewrite callTool_gate_open in Hsent by (right; reflexivity).
        cbn [snd] in Hsent. exact (app_cons_not_self _ _ _ Hsent). }
    destruct Hq as [Hm Hb]. rewrite Hm.
    repeat split; intros; try discriminate; cbn [In]; tauto.
  - destruct (shortcutAPI s) as [api |] eqn:Hs.
    + destruct (issued_request remote tool args s api q Hs Ht Hsent)
        as [ep [opts [fmt [Hi ->]]]].
      cbn [meth body request_of].
      destruct (issues_options _ _ _ _ _ Hi) as [_ H]. exact H.
    + exfalso. rewrite callTool_gate_closed in Hsent by assumption.
      exact (app_cons_not_self _ _ _ Hsent).
Qed.

Lemma request_method_by_tool_witness :
  (Some "PUT" = Some "DELETE" -> "shortcut_update_epic" = "shortcut_delete_story")
  /\ (Some "PUT" = Some "PUT" ->
      "shortcut_update_epic" = "shortcut_update_story"
      \/ "shortcut_update_epic" = "shortcut_update_epic")
  /\ (Some "PUT" = Some "POST" -> In "shortcut_update_epic" posting_tools)
  /\ (Some "PUT" = @None string ->
      Some (JSON_stringify (JObj [("state", JStr "done")])) = None)
  /\ In (Some "PUT") [None; Some "POST"; Some "PUT"; Some "DELETE"].
Proof.
  apply (request_method_by_tool (respond not_found) "shortcut_update_epic"
           (Some [("id", JNum 9); ("state", JStr "done")]) ready
           (request_of sample_api "/epics/9"
              (with_body "PUT"
                 (Some (JSON_stringify (JObj [("state", JStr "done")])))))).
  reflexivity.
Defined.

Lemma issued_request_headers remote tool args s api q :
  shortcutAPI s = Some api ->
  tool <> "shortcut_configure" ->
  sent (snd (callTool remote tool args s)) = (sent s ++ [q])%list ->
  headers q = [("Content-Type", Some (JStr "application/json"));
               ("Shortcut-Token", apiToken (config api))]
  /\ exists endpoint, url q = ToString (api_baseUrl api) ++ endpoint.
Proof.
  intros Hs Ht Hsent.
  destruct (issued_request remote tool args s api q Hs Ht Hsent)
    as [ep [opts [fmt [Hi ->]]]].
  destruct (issues_options _ _ _ _ _ Hi) as [Hh _].
  cbn [headers url request_of]. rewrite Hh. split; [reflexivity |].
  now exists ep.
Qed.

(** X5: with a client configured, every request a call of a tool other
    than the configuration tool issues goes to the client's base URL and
    carries exactly two headers: the JSON content type and the client's
    token as [Shortcut-Token]. *)
Theorem request_carries_client_token remote tool args s api q :
  shortcutAPI s = Some api ->
  tool <> "shortcut_configure" ->
  sent (snd (callTool remote tool args s)) = (sent s ++ [q])%list ->
  headers q = [("Content-Type", Some (JStr "application/json"));
               ("Shortcut-Token", apiToken (config api))]
  /\ exists endpoint, url q = ToString (api_baseUrl api) ++ endpoint.
Proof. intros. eapply issued_request_headers; eassumption. Qed.

Lemma request_carries_client_token_witness :
  headers (request_of sample_api "/workflows" no_options)
  = [("Content-Type", Some (JStr "application/json"));
     ("Shortcut-Token", Some (JStr "token-1"))]
  /\ exists endpoint,
       url (request_of sample_api "/workflows" no_options)
       = "https://api.app.shortcut.com/api/v3" ++ endpoint.
Proof.
  apply (request_carries_client_token (respond member_found)
           "shortcut_get_workflows" None ready sample_api).
  - reflexivity.
  - discriminate.
  - reflexivity.
Defined.

(** X6: the seven listing tools never look at their arguments: whatever
    argument object is sent, or none, the call does the same thing. *)
Theorem listing_tools_ignore_arguments remote tool args args' s :
  In tool listing_tools ->
  callTool remote tool args s = callTool remote tool args' s.
Proof.
  intro Hin. cbn [listing_tools In] in Hin.
  repeat (destruct Hin as [<- | Hin]; [reflexivity |]).
  destruct Hin.
Qed.

Lemma listing_tools_ignore_arguments_witness :
  callTool (respond member_found) "shortcut_get_members"
    (Some [("id", JNum 1)]) ready
  = callTool (respond member_found) "shortcut_get_members" None ready.
Proof.
  apply (listing_tools_ignore_arguments (respond member_found)
           "shortcut_get_members" (Some [("id", JNum 1)]) None ready).
  cbn [listing_tools In]. tauto.
Defined.

(** X7: the tools that address one entity (get_story, delete_story,
    get_epic, get_project, get_iteration) read nothing but [id]: two
    argument objects with the same [id], or both without one, give the
    same call. *)
Theorem by_id_tools_read_only_id remote tool a a' s :
  In tool ["shortcut_get_story"; "shortcut_delete_story"; "shortcut_get_epic";
           "shortcut_get_project"; "shortcut_get_iteration"] ->
  get "id" a = get "id" a' ->
  callTool remote tool (Some a) s = callTool remote tool (Some a') s.
Proof.
  intros Hin Hid. cbn [In] in Hin.
  repeat (destruct Hin as [<- | Hin];
          [ cbv beta iota zeta delta
              [callTool route handleGetStory handleDeleteStory handleGetEpic
               handleGetProject handleGetIteration destructure bind ret
               try_catch gate getStory deleteStory getEpic getProject
               getIteration String.eqb Ascii.eqb Bool.eqb negb];
            rewrite Hid; reflexivity |]).
  destruct Hin.
Qed.

Lemma by_id_tools_read_only_id_witness :
  callTool (respond member_found) "shortcut_get_project"
    (Some [("id", JNum 3); ("name", JStr "ignored")]) ready
  = callTool (respond member_found) "shortcut_get_project"
      (Some [("id", JNum 3)]) ready.
Proof.
  apply (by_id_tools_read_only_id (respond member_found)
           "shortcut_get_project"
           [("id", JNum 3); ("name", JStr "ignored")] [("id", JNum 3)] ready).
  - cbn [In]. tauto.
  - reflexivity.
Defined.

(* ================================================================== *)
(** ** Query strings *)








Lemma append_nonempty_left (a b : string) : a <> "" -> a ++ b <> "".
Proof. destruct a; [congruence | discriminate]. Qed.

Lemma URLSearchParams_toString_nonempty (p : URLSearchParams) :
  p <> [] -> URLSearchParams_toString p <> "".
Proof.
  destruct p as [| [k v] rest]; [congruence |]. intros _.
  unfold URLSearchParams_toString. cbn [map fst snd].
  assert (H : form_urlencode k ++ "=" ++ form_urlencode v <> "").
  { destruct (form_urlencode k); discriminate. }
  destruct rest as [| kv rest]; [exact H |].
  cbn [map String.concat]. apply append_nonempty_left, H.
Qed.

Lemma getStories_query_of_params (params : option Obj) :
  getStories_query params
  = match getStories_searchParams params with
    | [] => ""
    | _ :: _ => "?" ++ URLSearchParams_toString (getStories_searchParams params)
    end.
Proof.
  unfold getStories_query.
  destruct (getStories_searchParams params) as [| kv rest] eqn:E;
    [reflexivity |].
  cbn [truthy].
  destruct (String.eqb_spec (URLSearchParams_toString (kv :: rest)) "")
    as [Hempty | _]; [| reflexivity].
  exfalso. now apply (URLSearchParams_toString_nonempty (kv :: rest)).
Qed.

(** X9: the URL of get_stories has no query string exactly when none of
    the four filters is truthy; in particular when the call carries no
    arguments, or only properties other than the four filters. *)
Theorem get_stories_query_empty_iff (params : option Obj) :
  getStories_query params = ""
  <-> forall k, In k story_filters -> truthy_opt (get_opt k params) = false.
Proof.
  rewrite getStories_query_of_params.
  unfold getStories_searchParams, append_if.
  split.
  - intros H k Hk. cbn [story_filters In] in Hk.
    destruct (truthy_opt (get_opt "project_id" params)) eqn:E1;
      destruct (truthy_opt (get_opt "epic_id" params)) eqn:E2;
      destruct (truthy_opt (get_opt "includes_description" params)) eqn:E3;
      destruct (truthy_opt (get_opt "workflow_state_id" params)) eqn:E4;
      cbn [app] in H; try discriminate H;
      destruct Hk as [<- | [<- | [<- | [<- | []]]]]; assumption.
  - intro H.
    rewrite (H "project_id"), (H "epic_id"), (H "includes_description"),
      (H "workflow_state_id") by (cbn [story_filters In]; tauto).
    reflexivity.
Qed.




(* ================================================================== *)
(** ** Failures and absent arguments *)

(** X11: a failure of the transport reaches the caller as an
    Internal-Error carrying its message.  For a tool other than the
    configuration tool whose call issued request [q]: if [fetch] rejected
    with message [m], or the response had a success status but its body
    failed to parse with message [m], the call fails with
    [Error executing <tool>: m]. *)
Theorem transport_failure_surfaces remote tool args s q m :
  tool <> "shortcut_configure" ->
  sent (snd (callTool remote tool args s)) = (sent s ++ [q])%list ->
  (remote (sent s) q = Rejected m
   \/ exists r,
        remote (sent s) q = Responded r /\ ok r = true
        /\ json r = SyntaxError m) ->
  fst (callTool remote tool args s)
  = Throw (McpError InternalError ("Error executing " ++ tool ++ ": " ++ m)).
Proof.
  intros Ht Hsent Hfail.
  destruct (shortcutAPI s) as [api |] eqn:Hs.
  - destruct (call_outcome_cases remote tool args s api Hs Ht)
      as [[_ H] | [[_ [_ [m0 H]]] | [ep [opts [fmt [_ H]]]]]];
      rewrite H in Hsent |- *; cbn [fst snd pushed sent] in *.
    + exfalso. exact (app_cons_not_self _ _ _ Hsent).
    + exfalso. exact (app_cons_not_self _ _ _ Hsent).
    + apply app_single_inv in Hsent. destruct Hsent as [-> _].
      destruct Hfail as [-> | [r [-> [Hok Hj]]]]; unfold settle.
      * reflexivity.
      * rewrite Hok, Hj. reflexivity.
  - exfalso. rewrite callTool_gate_closed in Hsent by assumption.
    exact (app_cons_not_self _ _ _ Hsent).
Qed.

Lemma transport_failure_surfaces_witness :
  fst (callTool (respond garbled) "shortcut_get_iterations" None ready)
  = Throw (McpError InternalError
             "Error executing shortcut_get_iterations: Unexpected token '<'").
Proof.
  apply (transport_failure_surfaces (respond garbled)
           "shortcut_get_iterations" None ready
           (request_of sample_api "/iterations" no_options)
           "Unexpected token '<'").
  - discriminate.
  - reflexivity.
  - right. exists garbled. repeat split.
Defined.

(** X12: a call without arguments of a tool whose handler destructures
    them (the configuration tool and the tools that read [id] or
    [query]) fails with an Internal-Error before anything else happens:
    no request is issued and the state is untouched, so a committed
    client survives a configure call without arguments. *)
Theorem absent_arguments_fail_locally remote tool s :
  In tool destructuring_tools ->
  Configured s \/ tool = "shortcut_configure" ->
  exists m,
    callTool remote tool None s
    = (Throw (McpError InternalError
                ("Error executing " ++ tool ++ ": " ++ m)), s).
Proof.
  intros Hin Hopen.
  rewrite callTool_gate_open by exact Hopen.
  cbn [destructuring_tools In] in Hin.
  repeat (destruct Hin as [<- | Hin]; [eexists; reflexivity |]).
  destruct Hin.
Qed.

Lemma absent_arguments_fail_locally_witness :
  exists m,
    callTool (respond member_found) "shortcut_configure" None ready
    = (Throw (McpError InternalError
                ("Error executing " ++ "shortcut_configure" ++ ": " ++ m)),
       ready).
Proof.
  apply (absent_arguments_fail_locally (respond member_found)
           "shortcut_configure" ready).
  - cbn [destructuring_tools In]. tauto.
  - right. reflexivity.
Defined.



(* ================================================================== *)
(** ** Sequences of calls *)

(** X14: before configuration nothing happens.  From an Unconfigured
    state, a sequence of calls none of which is a configure call leaves
    the state exactly as it was: still Unconfigured, no request issued. *)
Theorem unconfigured_calls_do_nothing remote calls s :
  Unconfigured s ->
  Forall (fun c => fst c <> "shortcut_configure") calls ->
  run_calls remote calls s = s.
Proof.
  intros Hs Hall. induction Hall as [| [tool args] rest Ht _ IH];
    [reflexivity |].
  cbn [run_calls]. cbn [fst] in Ht.
  rewrite callTool_gate_closed by assumption. exact IH.
Qed.

Lemma unconfigured_calls_do_nothing_witness :
  run_calls (respond member_found)
    [("shortcut_get_stories", None);
     ("shortcut_delete_story", Some [("id", JNum 7)]);
     ("shortcut_unknown", None)] fresh
  = fresh.
Proof.
  apply (unconfigured_calls_do_nothing (respond member_found)).
  - reflexivity.
  - repeat constructor; discriminate.
Defined.

Lemma configure_frame remote args s :
  sent (snd (callTool remote "shortcut_configure" args s)) = sent s
  \/ exists q,
       sent (snd (callTool remote "shortcut_configure" args s))
       = (sent s ++ [q])%list.
Proof.
  destruct args as [a |].
  - right. rewrite callTool_configure, handleConfigure_run.
    eexists. destruct (settle _); reflexivity.
  - left. rewrite callTool_gate_open by (right; reflexivity). reflexivity.
Qed.

(** X15: one call, at most one request.  After any sequence of calls, of
    any tools in any state, the trace is the old trace followed by at
    most as many requests as there were calls. *)
Theorem sequence_request_bound remote calls s :
  exists added,
    sent (run_calls remote calls s) = (sent s ++ added)%list
    /\ (length added <= length calls)%nat.
Proof.
  revert s. induction calls as [| [tool args] rest IH]; intro s.
  - exists []. split; [now rewrite app_nil_r | apply le_n].
  - cbn [run_calls].
    destruct (IH (snd (callTool remote tool args s))) as [added [Hsent Hlen]].
    assert (Hstep : sent (snd (callTool remote tool args s)) = sent s
                    \/ exists q, sent (snd (callTool remote tool args s))
                                 = (sent s ++ [q])%list).
    { destruct (String.eqb_spec tool "shortcut_configure") as [-> | Ht].
      - apply configure_frame.
      - apply (call_frame_step remote tool args s Ht). }
    destruct Hstep as [Hq | [q Hq]]; rewrite Hq in Hsent.
    + exists added. split; [exact Hsent | cbn [length]; lia].
    + exists (q :: added). split.
      * rewrite Hsent, <- app_assoc. reflexivity.
      * cbn [length]. lia.
Qed.

(** X16: only a configure call changes the client.  After a sequence of
    calls none of which is a configure call, the [shortcutAPI] field is
    the one the sequence started with. *)
Theorem client_changes_only_by_configure remote calls s :
  Forall (fun c => fst c <> "shortcut_configure") calls ->
  shortcutAPI (run_calls remote calls s) = shortcutAPI s.
Proof.
  intro Hall. revert s.
  induction Hall as [| [tool args] rest Ht _ IH]; intro s; [reflexivity |].
  cbn [run_calls]. cbn [fst] in Ht. rewrite IH.
  apply (call_frame_step remote tool args s Ht).
Qed.

Lemma client_changes_only_by_configure_witness :
  shortcutAPI
    (run_calls refuse_delete
       [("shortcut_get_epics", None);
        ("shortcut_delete_story", Some [("id", JNum 7)]);
        ("shortcut_search", None)] ready)
  = Some sample_api.
Proof.
  apply (client_changes_only_by_configure refuse_delete
           [("shortcut_get_epics", None);
            ("shortcut_delete_story", Some [("id", JNum 7)]);
            ("shortcut_search", None)] ready).
  repeat constructor; discriminate.
Defined.

(* ================================================================== *)
(** ** Catalog and configuration *)

(** X17: the catalog and the dispatcher agree.  With a client
    configured, a call fails with Method-Not-Found exactly when its name
    is not one the list-tools handler advertises: every advertised tool
    has a handler, and nothing else does. *)
Theorem method_not_found_iff_not_advertised remote tool args s :
  Configured s ->
  (fst (callTool remote tool args s)
   = Throw (McpError MethodNotFound ("Unknown tool: " ++ tool))
   <-> ~ In tool catalog).
Proof.
  intro Hc. destruct (shortcutAPI s) as [api |] eqn:Hs; [| contradiction].
  split.
  - intros Hres Hin.
    destruct (String.eqb_spec tool "shortcut_configure") as [-> | Ht].
    + destruct args as [a |].
      * rewrite callTool_configure, handleConfigure_run in Hres.
        destruct (settle _); discriminate Hres.
      * rewrite callTool_gate_open in Hres by (right; reflexivity).
        discriminate Hres.
    + destruct (catalog_failure_cause remote tool args s _
                  (ltac:(congruence)) Hin Ht Hres) as [m Hm].
      discriminate Hm.
  - intro Hout.
    rewrite callTool_gate_open by (left; congruence).
    rewrite route_unknown by exact Hout. reflexivity.
Qed.

Lemma method_not_found_iff_not_advertised_witness :
  fst (callTool (respond member_found) "shortcut_update_project"
         (Some [("id", JNum 1)]) ready)
  = Throw (McpError MethodNotFound ("Unknown tool: " ++ "shortcut_update_project"))
  <-> ~ In "shortcut_update_project" catalog.
Proof.
  apply (method_not_found_iff_not_advertised (respond member_found)
           "shortcut_update_project" (Some [("id", JNum 1)]) ready).
  discriminate.
Defined.


(** X19: a successful configure call replaces the client, whatever was
    there before.  Every request a following call of another tool issues
    carries the new [apiToken] and goes to the new client's base URL. *)
Theorem reconfigure_switches_client remote a s member tool args q :
  fst (getCurrentMember remote (new_ShortcutAPI (config_of_args a)) s)
  = Return member ->
  tool <> "shortcut_configure" ->
  sent (snd (callTool remote tool args
               (snd (callTool remote "shortcut_configure" (Some a) s))))
  = (sent (snd (callTool remote "shortcut_configure" (Some a) s)) ++ [q])%list ->
  headers q = [("Content-Type", Some (JStr "application/json"));
               ("Shortcut-Token", get "apiToken" a)]
  /\ exists endpoint,
       url q = ToString (api_baseUrl (new_ShortcutAPI (config_of_args a)))
               ++ endpoint.
Proof.
  intros Hprobe Ht Hsent.
  rewrite getCurrentMember_settles in Hprobe.
  assert (Hs1 : shortcutAPI (snd (callTool remote "shortcut_configure" (Some a) s))
                = Some (new_ShortcutAPI (config_of_args a))).
  { rewrite callTool_configure, handleConfigure_run, Hprobe. reflexivity. }
  exact (issued_request_headers remote tool args _ _ q Hs1 Ht Hsent).
Qed.

Lemma reconfigure_switches_client_witness :
  headers (request_of
             (new_ShortcutAPI
                (config_of_args [("apiToken", JStr "token-2");
                                 ("baseUrl", JStr "https://example.test/v3")]))
             "/labels" no_options)
  = [("Content-Type", Some (JStr "application/json"));
     ("Shortcut-Token", Some (JStr "token-2"))]
  /\ exists endpoint,
       url (request_of
              (new_ShortcutAPI
                 (config_of_args [("apiToken", JStr "token-2");
                                  ("baseUrl", JStr "https://example.test/v3")]))
              "/labels" no_options)
       = "https://example.test/v3" ++ endpoint.
Proof.
  apply (reconfigure_switches_client (respond member_found)
           [("apiToken", JStr "token-2");
            ("baseUrl", JStr "https://example.test/v3")]
           ready member_payload "shortcut_get_labels" None).
  - reflexivity.
  - discriminate.
  - reflexivity.
Defined.




(** X22: the only way to a committed client is a configure call whose
    probe succeeded.  If after a call the [shortcutAPI] field holds a
    client that was not there before, the call was a configure call on an
    argument object, the client is the one built from those arguments,
    and its identity probe returned a value. *)
Theorem commit_requires_successful_probe remote tool args s api :
  shortcutAPI (snd (callTool remote tool args s)) = Some api ->
  shortcutAPI s <> Some api ->
  tool = "shortcut_configure"
  /\ exists a v,
       args = Some a
       /\ api = new_ShortcutAPI (config_of_args a)
       /\ fst (getCurrentMember remote api s) = Return v.
Proof.
  intros Hafter Hbefore.
  destruct (String.eqb_spec tool "shortcut_configure") as [-> | Ht].
  - split; [reflexivity |].
    destruct args as [a |].
    + rewrite callTool_configure, handleConfigure_run in Hafter.
      destruct (settle _) as [v | e] eqn:E; cbn [snd shortcutAPI] in Hafter.
      * injection Hafter as <-. exists a, v.
        rewrite getCurrentMember_settles. auto.
      * discriminate Hafter.
    + exfalso. apply Hbefore. rewrite <- Hafter.
      rewrite callTool_gate_open by (right; reflexivity). reflexivity.
  - exfalso. apply Hbefore. rewrite <- Hafter. symmetry.
    apply (call_frame_step remote tool args s Ht).
Qed.

Lemma commit_requires_successful_probe_witness :
  "shortcut_configure" = "shortcut_configure"
  /\ exists a v,
       Some [("apiToken", JStr "token-1")] = Some a
       /\ sample_api = new_ShortcutAPI (config_of_args a)
       /\ fst (getCurrentMember (respond member_found) sample_api fresh)
          = Return v.
Proof.
  apply (commit_requires_successful_probe (respond member_found)
           "shortcut_configure" (Some [("apiToken", JStr "token-1")]) fresh
           sample_api).
  - reflexivity.
  - discriminate.
Defined.

(** X23: the catalog of the list-tools handler is consistent: it has
    twenty-two entries with pairwise distinct names, and every field an
    input schema lists as required is one of that schema's properties. *)
Theorem catalog_consistent :
  length tools = 22%nat
  /\ NoDup catalog
  /\ forall t f, In t tools -> In f (required t) -> In f (properties t).
Proof.
  split; [reflexivity |]. split.
  - unfold catalog. cbn [tools map name].
    repeat (constructor;
            [cbn [In]; intro H;
             repeat (destruct H as [H | H]; [discriminate H |]); exact H |]).
    constructor.
  - intros t f Ht. cbn [tools In] in Ht.
    repeat (destruct Ht as [<- | Ht];
            [cbn [required properties In]; tauto |]).
    destruct Ht.
Qed.
